(** * required-modules: an ESLint rule that requires the usage of given modules

    A shallow embedding of [tools/eslint-rules/required-modules.js] and the
    properties of its specification.

    The rule is a closure over its [context]: the configured module names
    ([context.options]), the parsing mode ([context.parserOptions.sourceType])
    and one mutable array, [foundModules].  The embedding passes the mutable
    part around explicitly as a [State]; the handlers the rule registers are
    state transformers, and the host's traversal is a fold over the visited
    nodes followed by the ['Program:exit'] callback.

    Strings are sequences of code units below 256 (one [ascii] each). *)

From Stdlib Require Import String Ascii List ZArith Bool Lia Permutation.
Import ListNotations.

#[local] Set Warnings "-register-all".

Open Scope string_scope.

(** ** The host language: the JavaScript primitives the rule calls *)

Module JS.

(** [Array.prototype.indexOf] on an array of strings: the first index whose
    element is strictly equal to [x], or -1. *)
Fixpoint indexOfFrom (l : list string) (x : string) (i : Z) : Z :=
  match l with
  | [] => (-1)%Z
  | y :: l' => if String.eqb y x then i else indexOfFrom l' x (i + 1)%Z
  end.

Definition indexOf (l : list string) (x : string) : Z := indexOfFrom l x 0%Z.

(** White space and line terminators among the code units below 256:
    TAB, LF, VT, FF, CR, SP and NBSP. *)
Definition isWhiteSpace (c : ascii) : bool :=
  let n := nat_of_ascii c in
  ((9 <=? n)%nat && (n <=? 13)%nat) || (n =? 32)%nat || (n =? 160)%nat.

Fixpoint trimStart (s : string) : string :=
  match s with
  | EmptyString => EmptyString
  | String c s' => if isWhiteSpace c then trimStart s' else s
  end.

Fixpoint trimEnd (s : string) : string :=
  match s with
  | EmptyString => EmptyString
  | String c s' =>
      match trimEnd s' with
      | EmptyString =>
          if isWhiteSpace c then EmptyString else String c EmptyString
      | t => String c t
      end
  end.

(** [String.prototype.trim]. *)
Definition trim (s : string) : string := trimEnd (trimStart s).

(** The value of an expression that is a string or [undefined], and its
    truthiness in a condition: [undefined] and the empty string are falsy. *)
Definition truthy (v : option string) : bool :=
  match v with
  | None => false
  | Some s => negb (String.eqb s "")
  end.

End JS.

(** ** Node's [path.basename] (POSIX flavour, no suffix argument)

    The library scans the path from its last code unit down to the first:
    trailing separators are skipped, [end] is set at the first code unit
    that is not a separator, and the scan stops at the next separator. *)

Module Path.

Definition CHAR_FORWARD_SLASH : ascii := ascii_of_nat 47.

Definition isSlashAt (path : string) (i : nat) : bool :=
  match String.get i path with
  | Some c => Ascii.eqb c CHAR_FORWARD_SLASH
  | None => false
  end.

(** The loop [for (i = n - 1; i >= 0; --i)], entered with [n] indices
    left; it returns [(start, end)]. *)
Fixpoint scan (path : string) (n : nat) (end_ : Z) (matchedSlash : bool)
  : Z * Z :=
  match n with
  | O => (0%Z, end_)
  | S i =>
      if isSlashAt path i then
        if negb matchedSlash then (Z.of_nat i + 1, end_)%Z
        else scan path i end_ matchedSlash
      else if (end_ =? -1)%Z then scan path i (Z.of_nat i + 1)%Z false
      else scan path i end_ matchedSlash
  end.

Definition basename (path : string) : string :=
  let '(start, end_) := scan path (String.length path) (-1)%Z true in
  if (end_ =? -1)%Z then ""
  else String.substring (Z.to_nat start) (Z.to_nat (end_ - start)) path.

End Path.

(** ** The syntax tree handed over by the parser (ESTree) *)

Inductive LiteralValue : Type :=
| VString (s : string)
| VNumber (n : Z)
| VBoolean (b : bool)
| VNull.

(** The node kinds a file of the test suite is made of.  An import
    declaration's [source] is a string literal by construction; the field
    holds [node.source.value]. *)
Inductive ASTNode : Type :=
| Identifier (name : string)
| Literal (value : LiteralValue)
| MemberExpression (object property : ASTNode) (computed : bool)
| CallExpression (callee : ASTNode) (arguments : list ASTNode)
| ExpressionStatement (expression : ASTNode)
| VariableDeclaration (id : string) (init : ASTNode)
| ImportDeclaration (source : string).

(** The root of a file. *)
Record ProgramNode : Type := Program { body : list ASTNode }.

(** ** The rule's context and what it reports *)

Record Context : Type := {
  options : list string;
  parserOptions_sourceType : string
}.

Record ReportData : Type := { moduleName : string }.

(** One call [context.report(node, message, data)]. *)
Record Report : Type := {
  node : ProgramNode;
  message : string;
  data : ReportData
}.

(** The mutable part of one rule instance: the [foundModules] array, and the
    reports made so far, oldest first. *)
Record State : Type := {
  foundModules : list string;
  reports : list Report
}.

Definition initialState : State := {| foundModules := []; reports := [] |}.

(** [foundModules.push(name)]. *)
Definition push (name : string) (st : State) : State :=
  {| foundModules := foundModules st ++ [name]; reports := reports st |}.

(** [context.report(node, message, data)]. *)
Definition report (r : Report) (st : State) : State :=
  {| foundModules := foundModules st; reports := reports st ++ [r] |}.

Definition doubleQuote : string := String (ascii_of_nat 34) EmptyString.

(** The message template: Mandatory module "{{moduleName}}" must be loaded. *)
Definition MESSAGE : string :=
  "Mandatory module " ++ doubleQuote ++ "{{moduleName}}" ++ doubleQuote
  ++ " must be loaded.".

(** ** The rule *)

Section Rule.

Variable requiredModules : list string.

Definition isString (node : option ASTNode) : bool :=
  match node with
  | Some (Literal (VString _)) => true
  | _ => false
  end.

Definition isRequireCall (node : ASTNode) : bool :=
  match node with
  | CallExpression (Identifier name) _ => String.eqb name "require"
  | _ => false
  end.

Definition getRequiredModuleName (str : string) : option string :=
  if String.eqb str "../common/index.mjs" then Some "common"
  else
    let value := Path.basename str in
    if negb (JS.indexOf requiredModules value =? -1)%Z then Some value
    else None.

Definition getRequiredModuleNameFromCall (node : ASTNode) : option string :=
  match node with
  | CallExpression _ arguments =>
      if negb (length arguments =? 0)%nat && isString (nth_error arguments 0)
      then
        match nth_error arguments 0 with
        | Some (Literal (VString value)) =>
            getRequiredModuleName (JS.trim value)
        | _ => None
        end
      else None
  | _ => None
  end.

(** [requiredModules.filter((module) => foundModules.indexOf(module) === -1)]. *)
Definition missingModules (found : list string) : list string :=
  filter (fun module => (JS.indexOf found module =? -1)%Z) requiredModules.

(** ['Program:exit'(node)]. *)
Definition ProgramExit (node : ProgramNode) (st : State) : State :=
  if (length (foundModules st) <? length requiredModules)%nat then
    fold_left
      (fun st' moduleName =>
         report {| node := node; message := MESSAGE;
                   data := {| moduleName := moduleName |} |} st')
      (missingModules (foundModules st)) st
  else st.

(** [rules.ImportDeclaration].  The host calls it on import declarations
    only. *)
Definition onImportDeclaration (node : ASTNode) (st : State) : State :=
  match node with
  | ImportDeclaration source =>
      let requiredModuleName := getRequiredModuleName source in
      if JS.truthy requiredModuleName then
        match requiredModuleName with
        | Some name => push name st
        | None => st
        end
      else st
  | _ => st
  end.

(** [rules.CallExpression].  The host calls it on call expressions only. *)
Definition onCallExpression (node : ASTNode) (st : State) : State :=
  if isRequireCall node then
    let requiredModuleName := getRequiredModuleNameFromCall node in
    if JS.truthy requiredModuleName then
      match requiredModuleName with
      | Some name => push name st
      | None => st
      end
    else st
  else st.

End Rule.

(** The object the rule returns: the handlers it registers, by selector. *)
Record Rules : Type := {
  rule_ProgramExit : option (ProgramNode -> State -> State);
  rule_ImportDeclaration : option (ASTNode -> State -> State);
  rule_CallExpression : option (ASTNode -> State -> State)
}.

Definition noRules : Rules :=
  {| rule_ProgramExit := None;
     rule_ImportDeclaration := None;
     rule_CallExpression := None |}.

(** [module.exports = function(context)]. *)
Definition create (context : Context) : Rules :=
  let requiredModules := options context in
  let isESM := String.eqb (parserOptions_sourceType context) "module" in
  if (length requiredModules =? 0)%nat then noRules
  else if isESM then
    {| rule_ProgramExit := Some (ProgramExit requiredModules);
       rule_ImportDeclaration := Some (onImportDeclaration requiredModules);
       rule_CallExpression := None |}
  else
    {| rule_ProgramExit := Some (ProgramExit requiredModules);
       rule_ImportDeclaration := None;
       rule_CallExpression := Some (onCallExpression requiredModules) |}.

(** ** The host's traversal

    The linter walks the tree depth first and calls, on entering a node,
    the handler registered for the node's type; on leaving the root it
    calls the handler of ['Program:exit'], once. *)

Fixpoint traverse (n : ASTNode) : list ASTNode :=
  n :: match n with
       | MemberExpression object property _ =>
           traverse object ++ traverse property
       | CallExpression callee arguments =>
           traverse callee ++ flat_map traverse arguments
       | ExpressionStatement expression => traverse expression
       | VariableDeclaration _ init => traverse init
       | Identifier _ | Literal _ | ImportDeclaration _ => []
       end.

Definition applyHandler {A : Type} (h : option (A -> State -> State))
  (a : A) (st : State) : State :=
  match h with
  | Some f => f a st
  | None => st
  end.

(** Entering one node. *)
Definition enter (rules : Rules) (st : State) (n : ASTNode) : State :=
  match n with
  | ImportDeclaration _ => applyHandler (rule_ImportDeclaration rules) n st
  | CallExpression _ _ => applyHandler (rule_CallExpression rules) n st
  | _ => st
  end.

Definition visitAll (rules : Rules) (nodes : list ASTNode) (st : State)
  : State :=
  fold_left (enter rules) nodes st.

(** The nodes of a file in the order the linter enters them. *)
Definition visited (program : ProgramNode) : list ASTNode :=
  flat_map traverse (body program).

(** The state of the rule instance when the traversal of [program] is
    about to leave the root. *)
Definition traversed (context : Context) (program : ProgramNode) : State :=
  visitAll (create context) (visited program) initialState.

(** One analysis of one file: a fresh rule instance, the traversal, the end
    of the traversal; the result is the reports made, in order. *)
Definition lint (context : Context) (program : ProgramNode) : list Report :=
  reports
    (applyHandler (rule_ProgramExit (create context)) program
       (traversed context program)).

(** ** What the host shows: the message with its placeholder filled in

    The linter replaces the placeholder of the template by the value the
    report carries under that key. *)

Definition PLACEHOLDER : string := "{{moduleName}}".

Fixpoint interpolateFrom (skip : nat) (text : string) (d : ReportData)
  : string :=
  match text with
  | EmptyString => EmptyString
  | String c rest =>
      match skip with
      | S k => interpolateFrom k rest d
      | O =>
          if String.prefix PLACEHOLDER text
          then moduleName d ++ interpolateFrom (String.length PLACEHOLDER - 1) rest d
          else String c (interpolateFrom 0 rest d)
      end
  end.

Definition interpolate (text : string) (d : ReportData) : string :=
  interpolateFrom 0 text d.

Definition renderedMessage (r : Report) : string :=
  interpolate (message r) (data r).

(** ** Vocabulary of the properties *)

(** The report the rule makes for a missing module. *)
Definition missingReport (program : ProgramNode) (name : string) : Report :=
  {| node := program; message := MESSAGE; data := {| moduleName := name |} |}.

(** The names of the modules a list of reports is about, in order. *)
Definition reportedNames (rs : list Report) : list string :=
  map (fun r => moduleName (data r)) rs.

(** What entering node [n] appends to [foundModules]. *)
Definition recorded (context : Context) (n : ASTNode) : list string :=
  foundModules (enter (create context) initialState n).

(** Node [n] satisfies the requirement on [name]: entering it records
    [name] among the found modules. *)
Definition satisfiesRequirement (context : Context) (n : ASTNode)
  (name : string) : Prop :=
  In name (recorded context n).

(** What a handler of the rule does to the state, whatever the state:
    it appends at most one resolved, non-empty name and reports nothing. *)
Inductive Appends : list string -> list string -> Prop :=
| appends_nothing requiredModules : Appends requiredModules []
| appends_one requiredModules str name :
    getRequiredModuleName requiredModules str = Some name ->
    name <> "" ->
    Appends requiredModules [name].

(** The sources of the import declarations among [nodes], in order. *)
Definition importSources (nodes : list ASTNode) : list string :=
  flat_map (fun n => match n with
                     | ImportDeclaration source => [source]
                     | _ => []
                     end) nodes.

(** The import declarations of [program] cover exactly the required set by
    basename. *)
Definition coversExactly (requiredModules : list string)
  (program : ProgramNode) : Prop :=
  forall name,
    In name requiredModules <->
    In name (map Path.basename (importSources (visited program))).

(** A statement [require(str);] and a statement [callee(str);]. *)
Definition callStatement (callee str : string) : ASTNode :=
  ExpressionStatement
    (CallExpression (Identifier callee) [Literal (VString str)]).

Definition requireCall (str : string) : ASTNode :=
  CallExpression (Identifier "require") [Literal (VString str)].

Definition scriptContext (requiredModules : list string) : Context :=
  {| options := requiredModules; parserOptions_sourceType := "script" |}.

Definition moduleContext (requiredModules : list string) : Context :=
  {| options := requiredModules; parserOptions_sourceType := "module" |}.

(** The string has a path separator somewhere. *)
Fixpoint hasSlash (s : string) : bool :=
  match s with
  | EmptyString => false
  | String c s' => Ascii.eqb c Path.CHAR_FORWARD_SLASH || hasSlash s'
  end.

(** The string is made of white space only. *)
Fixpoint allWhiteSpace (s : string) : bool :=
  match s with
  | EmptyString => true
  | String c s' => JS.isWhiteSpace c && allWhiteSpace s'
  end.

(** The visited nodes of the kind the rule monitors in the context's
    parsing mode: import declarations in a module, call expressions
    otherwise. *)
Definition monitored (context : Context) (n : ASTNode) : bool :=
  if String.eqb (parserOptions_sourceType context) "module" then
    match n with ImportDeclaration _ => true | _ => false end
  else
    match n with CallExpression _ _ => true | _ => false end.

(** What entering all the nodes of the statements [nodes] appends to
    [foundModules]. *)
Definition recordedBy (context : Context) (nodes : list ASTNode)
  : list string :=
  flat_map (recorded context) (flat_map traverse nodes).

(** ** Properties of the primitives *)

Lemma indexOfFrom_absent (l : list string) (x : string) (i : Z) :
  ~ In x l -> JS.indexOfFrom l x i = (-1)%Z.
Proof.
  revert i; induction l as [|y l IH]; intros i Hx; simpl.
  - reflexivity.
  - destruct (String.eqb_spec y x) as [->|_].
    + exfalso; apply Hx; now left.
    + apply IH; intro H; apply Hx; now right.
Qed.

Lemma indexOfFrom_present (l : list string) (x : string) (i : Z) :
  In x l -> (i <= JS.indexOfFrom l x i)%Z.
Proof.
  revert i; induction l as [|y l IH]; intros i Hx; simpl.
  - destruct Hx.
  - destruct (String.eqb_spec y x) as [->|Hne].
    + lia.
    + destruct Hx as [->|Hx]; [congruence|].
      specialize (IH (i + 1)%Z Hx); lia.
Qed.

Lemma indexOf_absent_iff (l : list string) (x : string) :
  (JS.indexOf l x =? -1)%Z = true <-> ~ In x l.
Proof.
  unfold JS.indexOf; split.
  - intros H Hin. apply Z.eqb_eq in H.
    pose proof (indexOfFrom_present l x 0 Hin). lia.
  - intros H. rewrite indexOfFrom_absent by assumption. reflexivity.
Qed.

Lemma indexOf_present_iff (l : list string) (x : string) :
  (JS.indexOf l x =? -1)%Z = false <-> In x l.
Proof.
  destruct (in_dec string_dec x l) as [Hin|Hout].
  - split; [tauto|]. intros _.
    destruct (JS.indexOf l x =? -1)%Z eqn:E; [|reflexivity].
    apply indexOf_absent_iff in E; contradiction.
  - split; [|tauto]. intros E.
    apply indexOf_absent_iff in Hout; congruence.
Qed.

Lemma In_missingModules (requiredModules found : list string) (x : string) :
  In x (missingModules requiredModules found) <->
  In x requiredModules /\ ~ In x found.
Proof.
  unfold missingModules. rewrite filter_In, indexOf_absent_iff. tauto.
Qed.

(** ** Properties of the resolver *)

Lemma getRequiredModuleName_alias (requiredModules : list string) :
  getRequiredModuleName requiredModules "../common/index.mjs" = Some "common".
Proof. reflexivity. Qed.

Lemma getRequiredModuleName_other (requiredModules : list string)
  (str : string) :
  str <> "../common/index.mjs" ->
  getRequiredModuleName requiredModules str =
    if in_dec string_dec (Path.basename str) requiredModules
    then Some (Path.basename str) else None.
Proof.
  intros Hne. unfold getRequiredModuleName.
  destruct (String.eqb_spec str "../common/index.mjs") as [|_]; [contradiction|].
  cbv zeta.
  destruct (in_dec string_dec (Path.basename str) requiredModules) as [Hin|Hout].
  - apply indexOf_present_iff in Hin. now rewrite Hin.
  - apply indexOf_absent_iff in Hout. now rewrite Hout.
Qed.

Lemma getRequiredModuleName_sound (requiredModules : list string)
  (str name : string) :
  getRequiredModuleName requiredModules str = Some name ->
  name = "common" \/ In name requiredModules.
Proof.
  destruct (string_dec str "../common/index.mjs") as [->|Hne].
  - rewrite getRequiredModuleName_alias. intros [= <-]. now left.
  - rewrite getRequiredModuleName_other by assumption.
    destruct (in_dec _ _ _) as [Hin|]; [|discriminate].
    intros [= <-]. now right.
Qed.

(** ** Properties of the handlers *)

Lemma state_eta (st : State) :
  st = {| foundModules := foundModules st; reports := reports st |}.
Proof. now destruct st. Qed.

Lemma push_when_truthy (v : option string) (st : State) :
  (if JS.truthy v
   then match v with Some name => push name st | None => st end
   else st)
  = {| foundModules :=
         foundModules st ++
         (if JS.truthy v then match v with Some name => [name] | None => [] end
          else []);
       reports := reports st |}.
Proof.
  destruct v as [name|]; simpl.
  - destruct (negb (name =? "")); [reflexivity|].
    rewrite app_nil_r; apply state_eta.
  - rewrite app_nil_r; apply state_eta.
Qed.

Lemma truthy_Appends (requiredModules : list string) (str : string) :
  Appends requiredModules
    (if JS.truthy (getRequiredModuleName requiredModules str)
     then match getRequiredModuleName requiredModules str with
          | Some name => [name]
          | None => []
          end
     else []).
Proof.
  destruct (getRequiredModuleName requiredModules str) as [name|] eqn:E; simpl.
  - destruct (String.eqb_spec name "") as [->|Hne]; simpl.
    + constructor.
    + now apply appends_one with (str := str).
  - constructor.
Qed.

Lemma onImportDeclaration_spec (requiredModules : list string)
  (n : ASTNode) :
  exists suffix,
    Appends requiredModules suffix /\
    forall st',
      onImportDeclaration requiredModules n st' =
        {| foundModules := foundModules st' ++ suffix; reports := reports st' |}.
Proof.
  destruct n; simpl;
    try (exists []; split; [constructor|];
         intros st'; rewrite app_nil_r; apply state_eta).
  eexists; split; [apply (truthy_Appends requiredModules source)|].
  intros st'. apply push_when_truthy.
Qed.

Lemma getRequiredModuleNameFromCall_shape (requiredModules : list string)
  (n : ASTNode) :
  getRequiredModuleNameFromCall requiredModules n = None \/
  exists callee str rest,
    n = CallExpression callee (Literal (VString str) :: rest) /\
    getRequiredModuleNameFromCall requiredModules n =
      getRequiredModuleName requiredModules (JS.trim str).
Proof.
  destruct n as [| | |callee args| | |]; try (now left).
  destruct args as [|[| [str| | |] | | | | |] rest]; try (now left).
  right. exists callee, str, rest. split; reflexivity.
Qed.

Lemma onCallExpression_spec (requiredModules : list string)
  (n : ASTNode) :
  exists suffix,
    Appends requiredModules suffix /\
    forall st',
      onCallExpression requiredModules n st' =
        {| foundModules := foundModules st' ++ suffix; reports := reports st' |}.
Proof.
  unfold onCallExpression.
  destruct (isRequireCall n).
  - destruct (getRequiredModuleNameFromCall_shape requiredModules n)
      as [E|(callee & str & rest & _ & E)]; rewrite E.
    + exists []; split; [constructor|].
      intros st'; simpl; rewrite app_nil_r; apply state_eta.
    + eexists; split; [apply (truthy_Appends requiredModules (JS.trim str))|].
      intros st'. apply push_when_truthy.
  - exists []; split; [constructor|].
    intros st'; rewrite app_nil_r; apply state_eta.
Qed.

(** Entering a node, with the rules the rule returned. *)
Lemma enter_create_spec (context : Context) (n : ASTNode) :
  exists suffix,
    Appends (options context) suffix /\
    forall st,
      enter (create context) st n =
        {| foundModules := foundModules st ++ suffix; reports := reports st |}.
Proof.
  assert (Hnone : exists suffix,
             Appends (options context) suffix /\
             forall st, st = {| foundModules := foundModules st ++ suffix;
                                reports := reports st |}).
  { exists []; split; [constructor|].
    intros st; rewrite app_nil_r; apply state_eta. }
  unfold create.
  destruct (length (options context) =? 0)%nat;
    [destruct n; exact Hnone|].
  destruct (parserOptions_sourceType context =? "module");
    destruct n; try exact Hnone.
  - exact (onImportDeclaration_spec (options context) (ImportDeclaration source)).
  - exact (onCallExpression_spec (options context)
             (CallExpression n arguments)).
Qed.

Lemma enter_create (context : Context) (n : ASTNode) (st : State) :
  enter (create context) st n =
    {| foundModules := foundModules st ++ recorded context n;
       reports := reports st |}.
Proof.
  destruct (enter_create_spec context n) as (suffix & _ & H).
  unfold recorded. rewrite (H initialState), (H st). reflexivity.
Qed.

Lemma recorded_Appends (context : Context) (n : ASTNode) :
  Appends (options context) (recorded context n).
Proof.
  destruct (enter_create_spec context n) as (suffix & HA & H).
  unfold recorded. rewrite (H initialState). exact HA.
Qed.

Lemma visitAll_create (context : Context) (nodes : list ASTNode) (st : State) :
  visitAll (create context) nodes st =
    {| foundModules := foundModules st ++ flat_map (recorded context) nodes;
       reports := reports st |}.
Proof.
  unfold visitAll. revert st.
  induction nodes as [|n nodes IH]; intros st; simpl.
  - rewrite app_nil_r; apply state_eta.
  - rewrite IH, enter_create; simpl. now rewrite <- app_assoc.
Qed.

Lemma foundModules_traversed (context : Context) (program : ProgramNode) :
  foundModules (traversed context program) =
    flat_map (recorded context) (visited program).
Proof. unfold traversed. now rewrite visitAll_create. Qed.

Lemma reports_traversed (context : Context) (program : ProgramNode) :
  reports (traversed context program) = [].
Proof. unfold traversed. now rewrite visitAll_create. Qed.

(** ** Properties of the end of the traversal *)

Lemma fold_report (program : ProgramNode) (names : list string) (st : State) :
  fold_left
    (fun st' moduleName =>
       report {| node := program; message := MESSAGE;
                 data := {| moduleName := moduleName |} |} st')
    names st
  = {| foundModules := foundModules st;
       reports := reports st ++ map (missingReport program) names |}.
Proof.
  revert st; induction names as [|m names IH]; intros st; simpl.
  - rewrite app_nil_r; apply state_eta.
  - rewrite IH; simpl. now rewrite <- app_assoc.
Qed.

Lemma ProgramExit_spec (requiredModules : list string) (program : ProgramNode)
  (st : State) :
  ProgramExit requiredModules program st =
    {| foundModules := foundModules st;
       reports :=
         reports st ++
         if (length (foundModules st) <? length requiredModules)%nat
         then map (missingReport program)
                  (missingModules requiredModules (foundModules st))
         else [] |}.
Proof.
  unfold ProgramExit.
  destruct (length (foundModules st) <? length requiredModules)%nat.
  - apply fold_report.
  - rewrite app_nil_r; apply state_eta.
Qed.

Lemma create_ProgramExit (context : Context) :
  options context <> [] ->
  rule_ProgramExit (create context) = Some (ProgramExit (options context)).
Proof.
  intros Hne. unfold create.
  destruct (options context) as [|m l]; [congruence|]. simpl.
  now destruct (parserOptions_sourceType context =? "module").
Qed.

Lemma create_empty (context : Context) :
  options context = [] -> create context = noRules.
Proof. intros E. unfold create. now rewrite E. Qed.

(** The reports of one analysis, in terms of the names found. *)
Lemma lint_spec (context : Context) (program : ProgramNode) :
  lint context program =
    if (length (foundModules (traversed context program))
        <? length (options context))%nat
    then map (missingReport program)
           (missingModules (options context)
              (foundModules (traversed context program)))
    else [].
Proof.
  unfold lint.
  destruct (options context) as [|m l] eqn:E.
  - rewrite create_empty by assumption.
    unfold applyHandler; simpl. apply reports_traversed.
  - rewrite create_ProgramExit by congruence. simpl.
    rewrite ProgramExit_spec, reports_traversed, E. reflexivity.
Qed.

Lemma reportedNames_missing (program : ProgramNode) (names : list string) :
  reportedNames (map (missingReport program) names) = names.
Proof.
  unfold reportedNames. rewrite map_map. simpl. apply map_id.
Qed.

(** ** The configuration normalizer *)

(** C9.  With an empty list of required modules the rule registers no
    handler at all (the object it returns is empty), and the analysis of
    any file, in either parsing mode, reports nothing. *)
Theorem empty_configuration_registers_nothing :
  forall (sourceType : string) (program : ProgramNode),
    let context :=
      {| options := []; parserOptions_sourceType := sourceType |} in
    create context = noRules /\ lint context program = [].
Proof.
  intros sourceType program context. split.
  - reflexivity.
  - rewrite lint_spec. reflexivity.
Qed.

(** ** The accumulator *)

Lemma Appends_sound (requiredModules suffix : list string) :
  Appends requiredModules suffix ->
  Forall (fun name => name = "common" \/ In name requiredModules) suffix.
Proof.
  intros [r|r str name H _].
  - constructor.
  - constructor; [|constructor].
    now apply getRequiredModuleName_sound with (str := str).
Qed.

Lemma create_one_visit_handler (context : Context) :
  rule_ImportDeclaration (create context) = None \/
  rule_CallExpression (create context) = None.
Proof.
  unfold create.
  destruct (length (options context) =? 0)%nat; [now left|].
  destruct (parserOptions_sourceType context =? "module");
    [now right|now left].
Qed.

(** C10.  Whatever nodes have been entered so far, every element of
    [foundModules] is [common] or one of the required modules.  Entering
    one more node keeps what is there and appends nothing, or one name
    that [getRequiredModuleName] returned; at most one of the two visit
    handlers is registered; and the end-of-traversal handler leaves
    [foundModules] as it is. *)
Theorem foundModules_invariant :
  forall (context : Context) (nodes : list ASTNode),
    let rules := create context in
    let st := visitAll rules nodes initialState in
    Forall (fun name => name = "common" \/ In name (options context))
      (foundModules st)
    /\ (forall n, exists suffix,
          Appends (options context) suffix /\
          foundModules (enter rules st n) = (foundModules st ++ suffix)%list)
    /\ (rule_ImportDeclaration rules = None \/ rule_CallExpression rules = None)
    /\ (forall program,
          foundModules (applyHandler (rule_ProgramExit rules) program st)
          = foundModules st).
Proof.
  intros context nodes rules st. subst rules st. repeat split.
  - rewrite visitAll_create; simpl.
    apply Forall_flat_map, Forall_forall. intros n _.
    apply Appends_sound, recorded_Appends.
  - intros n. exists (recorded context n). split.
    + apply recorded_Appends.
    + now rewrite enter_create.
  - apply create_one_visit_handler.
  - intros program.
    destruct (options context) as [|m l] eqn:E.
    + now rewrite create_empty.
    + rewrite create_ProgramExit by congruence. simpl.
      now rewrite ProgramExit_spec.
Qed.

(** ** The length guard *)

Lemma lint_past_the_guard (context : Context) (program : ProgramNode) :
  (length (options context)
   <= length (foundModules (traversed context program)))%nat ->
  lint context program = [].
Proof.
  intros Hlen. rewrite lint_spec.
  destruct (Nat.ltb_spec (length (foundModules (traversed context program)))
              (length (options context))); [lia|reflexivity].
Qed.

(** C5.  When [foundModules] is at least as long as the configured list at
    the end of the traversal, nothing is reported, whatever is missing:
    the end-of-traversal handler returns the state it was given.
    Two files show how the guard is passed with a module still missing:
    two references to [a] with [a] and [b] required, and the alias path,
    which records [common], with only [fs] required. *)
Theorem length_guard_suppresses_reports :
  (forall (context : Context) (program : ProgramNode),
      (length (options context)
       <= length (foundModules (traversed context program)))%nat ->
      lint context program = [])
  /\ (forall (requiredModules : list string) (program : ProgramNode)
        (st : State),
        (length requiredModules <= length (foundModules st))%nat ->
        ProgramExit requiredModules program st = st)
  /\ (let context := scriptContext ["a"; "b"] in
      let program :=
        Program [callStatement "require" "a"; callStatement "require" "a"] in
      foundModules (traversed context program) = ["a"; "a"]
      /\ lint context program = [])
  /\ (let context := scriptContext ["fs"] in
      let program := Program [callStatement "require" "../common/index.mjs"] in
      foundModules (traversed context program) = ["common"]
      /\ lint context program = []).
Proof.
  split; [exact lint_past_the_guard|].
  split; [|split; split; reflexivity].
  intros requiredModules program st Hlen. unfold ProgramExit.
  destruct (Nat.ltb_spec (length (foundModules st)) (length requiredModules));
    [lia|reflexivity].
Qed.

Lemma length_guard_suppresses_reports_witness :
  (length (options (scriptContext ["a"; "b"]))
   <= length (foundModules
                (traversed (scriptContext ["a"; "b"])
                   (Program [callStatement "require" "a";
                             callStatement "require" "a"]))))%nat
  /\ lint (scriptContext ["a"; "b"])
       (Program [callStatement "require" "a"; callStatement "require" "a"])
     = [].
Proof.
  split.
  - vm_compute. lia.
  - apply (proj1 length_guard_suppresses_reports). vm_compute. lia.
Defined.

(** ** The reference classifier, call style *)

Lemma isRequireCall_shape (n : ASTNode) :
  isRequireCall n = true ->
  exists arguments, n = CallExpression (Identifier "require") arguments.
Proof.
  destruct n as [| | |callee args| | |]; try discriminate.
  destruct callee; try discriminate. simpl.
  intros H. apply String.eqb_eq in H. subst. now exists args.
Qed.

Lemma onCallExpression_ignores (requiredModules : list string) (n : ASTNode)
  (st : State) :
  (forall str rest,
      n <> CallExpression (Identifier "require")
             (Literal (VString str) :: rest)) ->
  onCallExpression requiredModules n st = st.
Proof.
  intros Hshape. unfold onCallExpression.
  destruct (isRequireCall n) eqn:Hreq; [|reflexivity].
  destruct (isRequireCall_shape n Hreq) as [args ->].
  destruct (getRequiredModuleNameFromCall_shape requiredModules
              (CallExpression (Identifier "require") args))
    as [E|(callee & str & rest & Hn & _)].
  - now rewrite E.
  - injection Hn as <- ->. now destruct (Hshape str rest).
Qed.

(** C7.  In call-style mode, entering a node that is not a call of the
    bare identifier [require] with a string literal as first argument
    leaves the state as it is; a call of that shape is resolved from its
    first argument, trimmed, whatever follows it.  So a file that only
    calls [doRequire("./fs.js")], with [fs] required, gets the one report
    for [fs]. *)
Theorem only_literal_require_calls_are_references :
  (forall (context : Context) (n : ASTNode) (st : State),
      parserOptions_sourceType context <> "module" ->
      (forall str rest,
          n <> CallExpression (Identifier "require")
                 (Literal (VString str) :: rest)) ->
      enter (create context) st n = st)
  /\ (forall (requiredModules : list string) (str : string)
        (rest : list ASTNode),
        getRequiredModuleNameFromCall requiredModules
          (CallExpression (Identifier "require")
             (Literal (VString str) :: rest))
        = getRequiredModuleName requiredModules (JS.trim str))
  /\ (let program := Program [callStatement "doRequire" "./fs.js"] in
      lint (scriptContext ["fs"]) program = [missingReport program "fs"]).
Proof.
  split; [|split; reflexivity].
  intros context n st Hmode Hshape. unfold create.
  destruct (length (options context) =? 0)%nat; [now destruct n|].
  destruct (String.eqb_spec (parserOptions_sourceType context) "module")
    as [|_]; [contradiction|].
  destruct n; try reflexivity.
  apply onCallExpression_ignores, Hshape.
Qed.

(** The shapes that are not references: another callee, a member callee,
    a computed member callee, no argument, a first argument that is not a
    literal, a literal that is not a string. *)
Lemma only_literal_require_calls_are_references_witness :
  let context := scriptContext ["fs"] in
  let st := {| foundModules := ["fs"]; reports := [] |} in
  let arg := Literal (VString "./fs") in
  Forall (fun n => enter (create context) st n = st)
    [ CallExpression (Identifier "doRequire") [arg];
      CallExpression
        (MemberExpression (Identifier "module") (Identifier "require") false)
        [arg];
      CallExpression
        (MemberExpression (Identifier "module")
           (Literal (VString "require")) true) [arg];
      CallExpression (Identifier "require") [];
      CallExpression (Identifier "require") [Identifier "name"];
      CallExpression (Identifier "require") [Literal (VNumber 1)] ].
Proof.
  intros context st arg.
  repeat (constructor;
          [apply (proj1 only_literal_require_calls_are_references);
           [discriminate|intros str rest; discriminate]|]).
  constructor.
Defined.

(** ** Entering a node, by parsing mode *)

Lemma enter_call_mode (context : Context) (n : ASTNode) (st : State) :
  options context <> [] ->
  parserOptions_sourceType context <> "module" ->
  enter (create context) st n =
    match n with
    | CallExpression _ _ => onCallExpression (options context) n st
    | _ => st
    end.
Proof.
  intros Hne Hmode. unfold create.
  destruct (options context) as [|m l] eqn:E; [congruence|]. simpl length.
  change (S (length l) =? 0)%nat with false. cbv iota.
  destruct (String.eqb_spec (parserOptions_sourceType context) "module")
    as [|_]; [contradiction|].
  now destruct n.
Qed.

Lemma enter_module_mode (context : Context) (n : ASTNode) (st : State) :
  options context <> [] ->
  parserOptions_sourceType context = "module" ->
  enter (create context) st n =
    match n with
    | ImportDeclaration _ => onImportDeclaration (options context) n st
    | _ => st
    end.
Proof.
  intros Hne Hmode. unfold create.
  destruct (options context) as [|m l] eqn:E; [congruence|]. simpl length.
  change (S (length l) =? 0)%nat with false. cbv iota.
  rewrite Hmode. change ("module" =? "module") with true. cbv iota.
  now destruct n.
Qed.

(** What a [require] call with a literal argument records, call style. *)
Lemma recorded_requireCall (context : Context) (str : string) :
  options context <> [] ->
  parserOptions_sourceType context <> "module" ->
  recorded context (requireCall str) =
    match getRequiredModuleName (options context) (JS.trim str) with
    | Some name => if String.eqb name "" then [] else [name]
    | None => []
    end.
Proof.
  intros Hne Hmode. unfold recorded.
  rewrite enter_call_mode by assumption.
  change (onCallExpression (options context) (requireCall str) initialState)
    with (let v := getRequiredModuleName (options context) (JS.trim str) in
          if JS.truthy v
          then match v with Some name => push name initialState
                          | None => initialState end
          else initialState).
  cbv zeta.
  destruct (getRequiredModuleName (options context) (JS.trim str))
    as [name|]; simpl; [|reflexivity].
  now destruct (name =? "").
Qed.

(** What an import declaration records, declarative style: the source is
    handed to the resolver as it is. *)
Lemma recorded_import (context : Context) (source : string) :
  options context <> [] ->
  parserOptions_sourceType context = "module" ->
  recorded context (ImportDeclaration source) =
    match getRequiredModuleName (options context) source with
    | Some name => if String.eqb name "" then [] else [name]
    | None => []
    end.
Proof.
  intros Hne Hmode. unfold recorded.
  rewrite enter_module_mode by assumption.
  unfold onImportDeclaration.
  destruct (getRequiredModuleName (options context) source)
    as [name|]; simpl; [|reflexivity].
  now destruct (name =? "").
Qed.

(** ** The alias *)

(** C6.  The path [../common/index.mjs] resolves to [common] whatever the
    configured list is, [common] being in it or not, and [common] is then
    appended to [foundModules]: by the import handler for an import from
    that path, by the call handler for a [require] call whose first
    argument is that path, and so by entering such a node with the rules
    of any non-empty configuration, in the parsing mode that monitors it.
    Nothing else changes: what was found before stays in front, and the
    reports are as they were. *)
Theorem alias_resolves_to_common :
  forall (requiredModules : list string),
    getRequiredModuleName requiredModules "../common/index.mjs" = Some "common"
    /\ (forall st,
          onImportDeclaration requiredModules
            (ImportDeclaration "../common/index.mjs") st
          = {| foundModules := foundModules st ++ ["common"];
               reports := reports st |})
    /\ (forall rest st,
          onCallExpression requiredModules
            (CallExpression (Identifier "require")
               (Literal (VString "../common/index.mjs") :: rest)) st
          = {| foundModules := foundModules st ++ ["common"];
               reports := reports st |})
    /\ (forall context rest st,
          options context = requiredModules ->
          requiredModules <> [] ->
          (parserOptions_sourceType context = "module" ->
           foundModules
             (enter (create context) st
                (ImportDeclaration "../common/index.mjs"))
           = (foundModules st ++ ["common"])%list
           /\ reports
                (enter (create context) st
                   (ImportDeclaration "../common/index.mjs"))
              = reports st)
          /\ (parserOptions_sourceType context <> "module" ->
              foundModules
                (enter (create context) st
                   (CallExpression (Identifier "require")
                      (Literal (VString "../common/index.mjs") :: rest)))
              = (foundModules st ++ ["common"])%list
              /\ reports
                   (enter (create context) st
                      (CallExpression (Identifier "require")
                         (Literal (VString "../common/index.mjs") :: rest)))
                 = reports st)).
Proof.
  intros requiredModules.
  split; [reflexivity|]. split; [reflexivity|]. split; [reflexivity|].
  intros context rest st Hoptions Hne. rewrite <- Hoptions in Hne. split.
  - intros Hmode. rewrite enter_module_mode by assumption.
    split; reflexivity.
  - intros Hmode. rewrite enter_call_mode by assumption.
    split; reflexivity.
Qed.

(** With only [fs] configured, and [fs] found already. *)
Lemma alias_resolves_to_common_witness :
  let st := {| foundModules := ["fs"]; reports := [] |} in
  foundModules
    (enter (create (moduleContext ["fs"])) st
       (ImportDeclaration "../common/index.mjs"))
  = ["fs"; "common"]
  /\ foundModules
       (enter (create (scriptContext ["fs"])) st
          (CallExpression (Identifier "require")
             [Literal (VString "../common/index.mjs"); Identifier "extra"]))
     = ["fs"; "common"].
Proof.
  intros st. split.
  - apply (proj1 (proj1 (proj2 (proj2 (proj2 (alias_resolves_to_common ["fs"])))
                    (moduleContext ["fs"]) [] st eq_refl
                    ltac:(discriminate)) eq_refl)).
  - apply (proj1 (proj2 (proj2 (proj2 (proj2 (alias_resolves_to_common ["fs"])))
                    (scriptContext ["fs"]) [Identifier "extra"] st eq_refl
                    ltac:(discriminate)) ltac:(discriminate))).
Defined.

(** ** The alias and paths of another depth *)

(** C2, as the specification states it, fails: a [require] of the path one
    directory deeper does not satisfy the requirement on [common], which
    is then reported, and it does satisfy a requirement named
    [index.mjs]. *)
Lemma deeper_path_is_not_the_alias :
  let deeper := requireCall "../../common/index.mjs" in
  let program := Program [callStatement "require" "../../common/index.mjs"] in
  ~ satisfiesRequirement (scriptContext ["common"]) deeper "common"
  /\ lint (scriptContext ["common"]) program = [missingReport program "common"]
  /\ satisfiesRequirement (scriptContext ["index.mjs"]) deeper "index.mjs"
  /\ lint (scriptContext ["index.mjs"]) program = [].
Proof.
  repeat split.
  - vm_compute. tauto.
  - vm_compute. now left.
Qed.

(** C2, amended.  In call-style mode with a non-empty configuration,
    [require("../common/index.mjs")] satisfies the requirement on [common]
    and none named [index.mjs]; [require("../../common/index.mjs")] is
    resolved by its basename: it never satisfies the requirement on
    [common], and it satisfies one named [index.mjs] exactly when that
    name is configured. *)
Theorem alias_is_one_exact_path :
  forall (context : Context),
    options context <> [] ->
    parserOptions_sourceType context <> "module" ->
    let alias := requireCall "../common/index.mjs" in
    let deeper := requireCall "../../common/index.mjs" in
    satisfiesRequirement context alias "common"
    /\ ~ satisfiesRequirement context alias "index.mjs"
    /\ ~ satisfiesRequirement context deeper "common"
    /\ (satisfiesRequirement context deeper "index.mjs"
        <-> In "index.mjs" (options context)).
Proof.
  intros context Hne Hmode alias deeper. subst alias deeper.
  unfold satisfiesRequirement.
  rewrite !recorded_requireCall by assumption.
  change (JS.trim "../common/index.mjs") with "../common/index.mjs".
  change (JS.trim "../../common/index.mjs") with "../../common/index.mjs".
  rewrite getRequiredModuleName_alias.
  rewrite getRequiredModuleName_other by discriminate.
  change (Path.basename "../../common/index.mjs") with "index.mjs".
  change ("common" =? "") with false.
  destruct (in_dec string_dec "index.mjs" (options context)) as [Hin|Hout];
    simpl; intuition discriminate.
Qed.

Lemma alias_is_one_exact_path_witness :
  let context := scriptContext ["common"; "index.mjs"] in
  satisfiesRequirement context (requireCall "../common/index.mjs") "common"
  /\ ~ satisfiesRequirement context (requireCall "../common/index.mjs")
         "index.mjs"
  /\ ~ satisfiesRequirement context (requireCall "../../common/index.mjs")
         "common"
  /\ (satisfiesRequirement context (requireCall "../../common/index.mjs")
        "index.mjs"
      <-> In "index.mjs" (options context)).
Proof.
  apply (alias_is_one_exact_path (scriptContext ["common"; "index.mjs"])).
  - discriminate.
  - discriminate.
Defined.

(** ** Basenames keep their extension *)

(** C3, as the specification states it, fails: the analysis reports
    something. *)
Lemma extension_is_part_of_the_basename :
  lint (scriptContext ["common"; "fs"])
    (Program [callStatement "require" "../common/index.mjs";
              callStatement "require" "./fs.js"])
  <> [].
Proof. vm_compute. discriminate. Qed.

(** C3, amended.  With [common] and [fs] required, the call-style file with
    [require("../common/index.mjs")] and [require("./fs.js")] gets exactly
    one report, for [fs]: the second path resolves to [fs.js], which is not
    required.  With [require("./fs")] in its place nothing is reported. *)
Theorem common_and_fs_scenario :
  let context := scriptContext ["common"; "fs"] in
  let withExtension :=
    Program [callStatement "require" "../common/index.mjs";
             callStatement "require" "./fs.js"] in
  let withoutExtension :=
    Program [callStatement "require" "../common/index.mjs";
             callStatement "require" "./fs"] in
  Path.basename "./fs.js" = "fs.js"
  /\ foundModules (traversed context withExtension) = ["common"]
  /\ lint context withExtension = [missingReport withExtension "fs"]
  /\ foundModules (traversed context withoutExtension) = ["common"; "fs"]
  /\ lint context withoutExtension = [].
Proof. repeat split. Qed.

(** ** Trimming *)

(** The resolver itself: the alias, or the basename when it is required.
    It does not trim. *)
Lemma getRequiredModuleName_contract (requiredModules : list string)
  (str : string) :
  getRequiredModuleName requiredModules str =
    if string_dec str "../common/index.mjs" then Some "common"
    else if in_dec string_dec (Path.basename str) requiredModules
         then Some (Path.basename str)
         else None.
Proof.
  destruct (string_dec str "../common/index.mjs") as [->|Hne].
  - apply getRequiredModuleName_alias.
  - now apply getRequiredModuleName_other.
Qed.

(** C4.  The source of an import declaration reaches the resolver
    untrimmed: with [fs] required, an import from [" fs"] (a leading space)
    records nothing and [fs] is reported, although the trimmed source
    resolves to [fs]; the call-style sibling trims and reports nothing for
    the same literal. *)
Theorem import_source_is_not_trimmed :
  let program := Program [ImportDeclaration " fs"] in
  JS.trim " fs" = "fs"
  /\ getRequiredModuleName ["fs"] (JS.trim " fs") = Some "fs"
  /\ getRequiredModuleName ["fs"] " fs" = None
  /\ foundModules (traversed (moduleContext ["fs"]) program) = []
  /\ lint (moduleContext ["fs"]) program = [missingReport program "fs"]
  /\ lint (scriptContext ["fs"]) (Program [callStatement "require" " fs"]) = [].
Proof. repeat split. Qed.

(** ** The verdict at the end of the traversal *)

Lemma missingModules_as_difference (requiredModules found : list string) :
  missingModules requiredModules found =
    filter (fun name => if in_dec string_dec name found then false else true)
      requiredModules.
Proof.
  unfold missingModules. apply filter_ext. intros name.
  destruct (in_dec string_dec name found) as [Hin|Hout].
  - now apply indexOf_present_iff.
  - now apply indexOf_absent_iff.
Qed.

Lemma count_occ_filter_NoDup (f : string -> bool) (l : list string)
  (x : string) :
  NoDup l -> In x l -> f x = true ->
  count_occ string_dec (filter f l) x = 1%nat.
Proof.
  intros Hnd Hin Hf.
  apply (proj1 (NoDup_count_occ' string_dec (filter f l))).
  - now apply NoDup_filter.
  - apply filter_In. now split.
Qed.

Lemma never_recorded_not_found (context : Context) (program : ProgramNode)
  (name : string) :
  (forall n, In n (visited program) -> ~ satisfiesRequirement context n name) ->
  ~ In name (foundModules (traversed context program)).
Proof.
  intros Hnever Hin. rewrite foundModules_traversed in Hin.
  apply in_flat_map in Hin. destruct Hin as (n & Hn & Hrec).
  exact (Hnever n Hn Hrec).
Qed.

(** C1, as the specification states it, fails: with [fs] required, the
    only reference of the file resolves to [common], no visited node
    records [fs], and yet nothing is reported, because [foundModules] is
    as long as the configured list. *)
Lemma missing_module_unreported_past_the_guard :
  let context := scriptContext ["fs"] in
  let program := Program [callStatement "require" "../common/index.mjs"] in
  options context <> []
  /\ (forall n, In n (visited program) ->
                ~ satisfiesRequirement context n "fs")
  /\ lint context program = [].
Proof.
  intros context program. split; [discriminate|]. split; [|reflexivity].
  intros n Hin. vm_compute in Hin.
  repeat (destruct Hin as [<-|Hin]; [vm_compute; intuition discriminate|]).
  destruct Hin.
Qed.

(** C1, amended.  For a configuration of distinct names and a file for
    which fewer names were recorded than are required, the reports are
    those of the required names that were not recorded, in the configured
    order, each anchored at the root with the message template.  So a
    required module [X] that no visited node records is named by exactly
    one report, whose message reads: Mandatory module "X" must be loaded. *)
Theorem missing_modules_reported_in_configured_order :
  forall (context : Context) (program : ProgramNode),
    NoDup (options context) ->
    (length (foundModules (traversed context program))
     < length (options context))%nat ->
    let found := foundModules (traversed context program) in
    lint context program =
      map (missingReport program)
        (filter (fun name => if in_dec string_dec name found
                             then false else true)
           (options context))
    /\ forall X,
         In X (options context) ->
         (forall n, In n (visited program) ->
                    ~ satisfiesRequirement context n X) ->
         count_occ string_dec (reportedNames (lint context program)) X = 1%nat
         /\ In (missingReport program X) (lint context program)
         /\ renderedMessage (missingReport program X) =
              "Mandatory module " ++ doubleQuote ++ X ++ doubleQuote
              ++ " must be loaded.".
Proof.
  intros context program Hnd Hlen found.
  assert (Hlint : lint context program =
                    map (missingReport program)
                      (filter (fun name => if in_dec string_dec name found
                                           then false else true)
                         (options context))).
  { rewrite lint_spec. apply Nat.ltb_lt in Hlen. rewrite Hlen.
    now rewrite missingModules_as_difference. }
  split; [exact Hlint|].
  intros X HX Hnever.
  assert (Hout : ~ In X found) by now apply never_recorded_not_found.
  assert (Hkeep : (if in_dec string_dec X found then false else true) = true)
    by now destruct (in_dec string_dec X found).
  rewrite Hlint, reportedNames_missing. repeat split.
  - now apply count_occ_filter_NoDup.
  - apply in_map, filter_In. now split.
Qed.

Lemma missing_modules_reported_in_configured_order_witness :
  let context := scriptContext ["fs"; "common"; "path"] in
  let program := Program [callStatement "require" "../common/index.mjs"] in
  lint context program =
    [missingReport program "fs"; missingReport program "path"]
  /\ count_occ string_dec (reportedNames (lint context program)) "path" = 1%nat.
Proof.
  intros context program.
  assert (Hnd : NoDup (options context)).
  { repeat constructor; simpl; intuition discriminate. }
  assert (Hlen : (length (foundModules (traversed context program))
                  < length (options context))%nat).
  { vm_compute. lia. }
  destruct (missing_modules_reported_in_configured_order
              context program Hnd Hlen) as [Hlint Hone].
  split.
  - rewrite Hlint. reflexivity.
  - apply (Hone "path").
    + simpl. tauto.
    + intros n Hin. vm_compute in Hin.
      repeat (destruct Hin as [<-|Hin]; [vm_compute; intuition discriminate|]).
      destruct Hin.
Defined.

(** ** Declarative imports that cover the required set *)

Lemma recorded_not_import (context : Context) (n : ASTNode) :
  options context <> [] ->
  parserOptions_sourceType context = "module" ->
  (forall source, n <> ImportDeclaration source) ->
  recorded context n = [].
Proof.
  intros Hne Hmode Hn. unfold recorded.
  rewrite enter_module_mode by assumption.
  destruct n; try reflexivity. now destruct (Hn source).
Qed.

(** When every import has a required basename and no required name is
    empty, every import declaration records one name. *)
Lemma one_name_per_import (context : Context) (nodes : list ASTNode) :
  options context <> [] ->
  parserOptions_sourceType context = "module" ->
  ~ In "" (options context) ->
  (forall source, In source (importSources nodes) ->
                  In (Path.basename source) (options context)) ->
  length (flat_map (recorded context) nodes) = length (importSources nodes).
Proof.
  intros Hne Hmode Hnonempty.
  induction nodes as [|n nodes IH]; intros Hall; [reflexivity|].
  unfold importSources in *. simpl. rewrite !length_app.
  rewrite IH by (intros source Hs; apply Hall; simpl; apply in_or_app; now right).
  f_equal.
  destruct n;
    try (rewrite recorded_not_import by (assumption || discriminate);
         reflexivity).
  rewrite recorded_import by assumption.
  rewrite getRequiredModuleName_contract.
  destruct (string_dec source "../common/index.mjs") as [|Hother];
    [reflexivity|].
  assert (Hin : In (Path.basename source) (options context)).
  { apply Hall. simpl. now left. }
  destruct (in_dec string_dec (Path.basename source) (options context))
    as [_|Hout]; [|contradiction].
  destruct (String.eqb_spec (Path.basename source) "") as [E|_];
    [|reflexivity].
  rewrite E in Hin. contradiction.
Qed.

Lemma covered_reports_nothing (context : Context) (program : ProgramNode) :
  parserOptions_sourceType context = "module" ->
  NoDup (options context) ->
  ~ In "" (options context) ->
  coversExactly (options context) program ->
  lint context program = [].
Proof.
  intros Hmode Hnd Hnonempty Hcover.
  apply lint_past_the_guard.
  assert (Hcases : options context = [] \/ options context <> [])
    by (destruct (options context); [now left|right; discriminate]).
  destruct Hcases as [E|Hne]; [rewrite E; simpl; lia|].
  rewrite foundModules_traversed, one_name_per_import; try assumption.
  - rewrite <- (length_map Path.basename (importSources (visited program))).
    apply NoDup_incl_length; [assumption|].
    intros name Hname. now apply Hcover.
  - intros source Hs. apply Hcover. now apply in_map.
Qed.

Lemma coversExactly_Permutation (requiredModules : list string)
  (program program' : ProgramNode) :
  Permutation (body program) (body program') ->
  coversExactly requiredModules program ->
  coversExactly requiredModules program'.
Proof.
  intros Hperm Hcover name. rewrite (Hcover name).
  assert (Hp : Permutation
                 (map Path.basename (importSources (visited program)))
                 (map Path.basename (importSources (visited program')))).
  { apply Permutation_map. unfold importSources, visited.
    now do 2 apply Permutation_flat_map. }
  split; apply Permutation_in; [assumption|now apply Permutation_sym].
Qed.

(** X4.  The names reported, and their order, do not depend on the order
    of the top-level nodes of the file, whatever the file, the parsing mode
    and the configuration. *)
Lemma reportedNames_Permutation (context : Context)
  (program program' : ProgramNode) :
  Permutation (body program) (body program') ->
  reportedNames (lint context program) = reportedNames (lint context program').
Proof.
  intros Hperm.
  assert (Hfound : Permutation (foundModules (traversed context program))
                     (foundModules (traversed context program'))).
  { rewrite !foundModules_traversed. unfold visited.
    now do 2 apply Permutation_flat_map. }
  rewrite !lint_spec, (Permutation_length Hfound).
  destruct (length (foundModules (traversed context program'))
            <? length (options context))%nat; [|reflexivity].
  rewrite !reportedNames_missing, !missingModules_as_difference.
  apply filter_ext. intros name.
  destruct (in_dec string_dec name (foundModules (traversed context program)))
    as [Hin|Hout];
  destruct (in_dec string_dec name (foundModules (traversed context program')))
    as [Hin'|Hout']; try reflexivity.
  - destruct Hout'. now apply (Permutation_in name Hfound).
  - destruct Hout. now apply (Permutation_in name (Permutation_sym Hfound)).
Qed.

(** C8, as the specification states it, fails: with the empty name
    required and an import whose basename is the empty name, the imports
    cover the required set, but the empty name is falsy, is not recorded,
    and is reported. *)
Lemma empty_name_is_covered_and_reported :
  let context := moduleContext [""] in
  let program := Program [ImportDeclaration ""] in
  coversExactly (options context) program
  /\ lint context program = [missingReport program ""].
Proof.
  split; [|reflexivity].
  intros name. vm_compute. tauto.
Qed.

(** C8, amended.  In declarative-import mode, for a configuration of
    distinct, non-empty names, a file whose import declarations cover
    exactly the required set by basename gets no report, and neither does
    any file with the same top-level nodes in another order. *)
Theorem covering_imports_report_nothing_in_any_order :
  forall (context : Context) (program program' : ProgramNode),
    parserOptions_sourceType context = "module" ->
    NoDup (options context) ->
    ~ In "" (options context) ->
    coversExactly (options context) program ->
    Permutation (body program) (body program') ->
    lint context program = [] /\ lint context program' = [].
Proof.
  intros context program program' Hmode Hnd Hnonempty Hcover Hperm. split.
  - now apply covered_reports_nothing.
  - apply covered_reports_nothing; try assumption.
    now apply coversExactly_Permutation with (program := program).
Qed.

Lemma covering_imports_report_nothing_in_any_order_witness :
  let context := moduleContext ["fs"; "index.mjs"] in
  let program :=
    Program [ImportDeclaration "./fs"; ImportDeclaration "../common/index.mjs"]
  in
  let program' :=
    Program [ImportDeclaration "../common/index.mjs"; ImportDeclaration "./fs"]
  in
  lint context program = [] /\ lint context program' = [].
Proof.
  intros context program program'.
  apply (covering_imports_report_nothing_in_any_order context program program').
  - reflexivity.
  - repeat constructor; simpl; intuition discriminate.
  - simpl. intuition discriminate.
  - intros name. vm_compute. tauto.
  - apply perm_swap.
Defined.

(** * Further properties of the rule *)

(** ** What a report means *)

Lemma found_iff_recorded (context : Context) (program : ProgramNode)
  (name : string) :
  In name (foundModules (traversed context program)) <->
  exists n, In n (visited program) /\ satisfiesRequirement context n name.
Proof.
  rewrite foundModules_traversed. unfold satisfiesRequirement.
  apply in_flat_map.
Qed.

(** X1.  Every report of an analysis is anchored at the root of the file,
    carries the message template, and names a configured module that no
    visited node recorded; and there is a report only when fewer names were
    recorded than are configured. *)
Theorem reports_are_sound :
  forall (context : Context) (program : ProgramNode) (r : Report),
    In r (lint context program) ->
    node r = program
    /\ message r = MESSAGE
    /\ In (moduleName (data r)) (options context)
    /\ (forall n, In n (visited program) ->
                  ~ satisfiesRequirement context n (moduleName (data r)))
    /\ (length (foundModules (traversed context program))
        < length (options context))%nat.
Proof.
  intros context program r Hr. rewrite lint_spec in Hr.
  destruct (Nat.ltb_spec (length (foundModules (traversed context program)))
              (length (options context))) as [Hlt|_]; [|destruct Hr].
  apply in_map_iff in Hr. destruct Hr as (name & <- & Hname).
  apply In_missingModules in Hname. destruct Hname as [Hreq Hout].
  repeat split; try assumption.
  intros n Hn Hsat. apply Hout, found_iff_recorded. now exists n.
Qed.

Lemma reports_are_sound_witness :
  let context := scriptContext ["fs"; "path"] in
  let program := Program [callStatement "require" "fs"] in
  let r := missingReport program "path" in
  In (moduleName (data r)) (options context)
  /\ forall n, In n (visited program) ->
               ~ satisfiesRequirement context n (moduleName (data r)).
Proof.
  intros context program r.
  assert (Hr : In r (lint context program)) by (vm_compute; now left).
  destruct (reports_are_sound context program r Hr) as (_ & _ & H1 & H2 & _).
  split; assumption.
Defined.

(** X2.  When every configured module is recorded by some visited node,
    nothing is reported, in either parsing mode and whatever else the file
    refers to. *)
Theorem all_recorded_reports_nothing :
  forall (context : Context) (program : ProgramNode),
    (forall name, In name (options context) ->
       exists n, In n (visited program) /\
                 satisfiesRequirement context n name) ->
    lint context program = [].
Proof.
  intros context program Hall. rewrite lint_spec.
  destruct (length (foundModules (traversed context program))
            <? length (options context))%nat; [|reflexivity].
  assert (E : missingModules (options context)
                (foundModules (traversed context program)) = []).
  { destruct (missingModules (options context)
                (foundModules (traversed context program)))
      as [|name rest] eqn:Hm; [reflexivity|].
    assert (Hin : In name (missingModules (options context)
                             (foundModules (traversed context program))))
      by (rewrite Hm; now left).
    apply In_missingModules in Hin. destruct Hin as [Hreq Hout].
    destruct Hout. apply found_iff_recorded. now apply Hall. }
  now rewrite E.
Qed.

Lemma all_recorded_reports_nothing_witness :
  lint (scriptContext ["fs"; "common"])
    (Program [VariableDeclaration "fs" (requireCall "fs");
              callStatement "require" "../common/index.mjs";
              callStatement "require" "./other"])
  = [].
Proof.
  apply all_recorded_reports_nothing.
  intros name Hname. simpl in Hname.
  destruct Hname as [<-|[<-|[]]].
  - exists (requireCall "fs"). split; vm_compute; tauto.
  - exists (requireCall "../common/index.mjs"). split; vm_compute; tauto.
Defined.

(** ** Files without a monitored reference *)

Lemma recorded_unmonitored (context : Context) (n : ASTNode) :
  monitored context n = false -> recorded context n = [].
Proof.
  unfold monitored, recorded, create. intros Hn.
  destruct (length (options context) =? 0)%nat; [now destruct n|].
  destruct (parserOptions_sourceType context =? "module");
    destruct n; try reflexivity; discriminate.
Qed.

Lemma missingModules_nothing_found (requiredModules : list string) :
  missingModules requiredModules [] = requiredModules.
Proof.
  unfold missingModules.
  induction requiredModules as [|m l IH]; [reflexivity|].
  cbn [filter]. change (JS.indexOf [] m =? -1)%Z with true.
  cbv iota. now f_equal.
Qed.

(** X3.  A file none of whose visited nodes is of the kind monitored in its
    parsing mode gets one report per configured module, in the configured
    order: [require] calls do not count in a module, import declarations do
    not count elsewhere. *)
Theorem unmonitored_file_reports_every_module :
  forall (context : Context) (program : ProgramNode),
    (forall n, In n (visited program) -> monitored context n = false) ->
    lint context program = map (missingReport program) (options context).
Proof.
  intros context program Hnone.
  assert (Hfound : foundModules (traversed context program) = []).
  { rewrite foundModules_traversed.
    induction (visited program) as [|n nodes IH]; [reflexivity|].
    simpl. rewrite recorded_unmonitored by (apply Hnone; now left).
    apply IH. intros n' Hn'. apply Hnone. now right. }
  rewrite lint_spec, Hfound, missingModules_nothing_found.
  now destruct (options context).
Qed.

Lemma unmonitored_file_reports_every_module_witness :
  let program :=
    Program [VariableDeclaration "fs" (requireCall "fs");
             callStatement "require" "../common/index.mjs"] in
  lint (moduleContext ["common"; "fs"]) program
  = [missingReport program "common"; missingReport program "fs"].
Proof.
  intros program.
  apply (unmonitored_file_reports_every_module
           (moduleContext ["common"; "fs"]) program).
  intros n Hn. vm_compute in Hn.
  repeat (destruct Hn as [<-|Hn]; [reflexivity|]).
  destruct Hn.
Defined.

(** ** How many reports *)

(** X5.  An analysis never makes more reports than there are configured
    modules, and for a configuration of distinct names no module is
    reported twice. *)
Theorem at_most_one_report_per_module :
  forall (context : Context) (program : ProgramNode),
    (length (lint context program) <= length (options context))%nat
    /\ (NoDup (options context) ->
        NoDup (reportedNames (lint context program))).
Proof.
  intros context program. rewrite lint_spec.
  destruct (length (foundModules (traversed context program))
            <? length (options context))%nat.
  - split.
    + rewrite length_map. unfold missingModules. apply filter_length_le.
    + intros Hnd. rewrite reportedNames_missing.
      unfold missingModules. now apply NoDup_filter.
  - split; [simpl; lia|intros _; constructor].
Qed.

Lemma at_most_one_report_per_module_witness :
  NoDup (reportedNames
           (lint (scriptContext ["fs"; "path"; "os"])
              (Program [callStatement "require" "path"]))).
Proof.
  apply (proj2 (at_most_one_report_per_module
                  (scriptContext ["fs"; "path"; "os"])
                  (Program [callStatement "require" "path"]))).
  repeat constructor; simpl; intuition discriminate.
Defined.

(** ** When the length guard is exact *)

(** X6.  When no name was recorded twice and every recorded name is a
    configured one, the length guard changes nothing: the reports are
    exactly the configured modules that were not recorded, in the
    configured order. *)
Theorem guard_is_exact_without_duplicates :
  forall (context : Context) (program : ProgramNode),
    let found := foundModules (traversed context program) in
    NoDup found ->
    (forall name, In name found -> In name (options context)) ->
    lint context program =
      map (missingReport program)
        (filter (fun name => if in_dec string_dec name found
                             then false else true)
           (options context)).
Proof.
  intros context program found Hnd Hincl. subst found.
  rewrite lint_spec, <- missingModules_as_difference.
  destruct (Nat.ltb_spec (length (foundModules (traversed context program)))
              (length (options context))) as [_|Hge]; [reflexivity|].
  assert (Hall : incl (options context)
                   (foundModules (traversed context program)))
    by now apply NoDup_length_incl.
  destruct (missingModules (options context)
              (foundModules (traversed context program)))
    as [|name rest] eqn:Hm; [reflexivity|].
  assert (Hin : In name (missingModules (options context)
                           (foundModules (traversed context program))))
    by (rewrite Hm; now left).
  apply In_missingModules in Hin. destruct Hin as [Hreq Hout].
  destruct Hout. now apply Hall.
Qed.

Lemma guard_is_exact_without_duplicates_witness :
  let context := scriptContext ["fs"; "path"; "os"] in
  let program :=
    Program [callStatement "require" "os"; callStatement "require" "./lib/fs"]
  in
  lint context program = [missingReport program "path"].
Proof.
  intros context program.
  rewrite (guard_is_exact_without_duplicates context program).
  - reflexivity.
  - vm_compute. repeat constructor; simpl; intuition discriminate.
  - intros name Hname. vm_compute in Hname. vm_compute. tauto.
Defined.

(** ** The basename: no separator, and the leaf of a path *)

Lemma hasSlash_isSlashAt (s : string) :
  hasSlash s = false <-> forall i, Path.isSlashAt s i = false.
Proof.
  unfold Path.isSlashAt. induction s as [|c s IH]; simpl.
  - split; [now intros _ i|reflexivity].
  - rewrite orb_false_iff, IH. split.
    + intros [Hc Hs] [|i]; simpl; [exact Hc|apply Hs].
    + intros H. split; [exact (H 0%nat)|intros i; exact (H (S i))].
Qed.

(** The scan, from a state in which the code units from [n] up to [end]
    are known not to be separators, delimits a range without separator. *)
Lemma scan_delimits (path : string) (n : nat) (end_ : Z) (matchedSlash : bool) :
  (end_ = (-1)%Z /\ matchedSlash = true) \/
  (end_ <> (-1)%Z /\ matchedSlash = false /\
   forall j, (n <= j)%nat -> (Z.of_nat j < end_)%Z ->
             Path.isSlashAt path j = false) ->
  let '(start, e) := Path.scan path n end_ matchedSlash in
  (0 <= start)%Z /\
  (e = (-1)%Z \/
   forall j, (start <= Z.of_nat j)%Z -> (Z.of_nat j < e)%Z ->
             Path.isSlashAt path j = false).
Proof.
  revert end_ matchedSlash.
  induction n as [|i IH]; intros end_ matchedSlash Hstate; simpl.
  - split; [lia|].
    destruct Hstate as [[-> _]|(_ & _ & H)]; [now left|right].
    intros j _ Hj. apply H; [lia|assumption].
  - destruct (Path.isSlashAt path i) eqn:Hi.
    + destruct Hstate as [[-> ->]|(Hend & -> & H)]; simpl.
      * apply IH. now left.
      * split; [lia|right]. intros j Hj1 Hj2. apply H; [lia|assumption].
    + destruct Hstate as [[-> ->]|(Hend & -> & H)].
      * change (-1 =? -1)%Z with true. cbv iota. apply IH. right.
        split; [lia|]. split; [reflexivity|].
        intros j Hj1 Hj2. assert (j = i) by lia. now subst.
      * apply Z.eqb_neq in Hend. rewrite Hend. apply IH. right.
        apply Z.eqb_neq in Hend. split; [assumption|]. split; [reflexivity|].
        intros j Hj1 Hj2.
        destruct (Nat.eq_dec j i) as [->|Hne]; [assumption|].
        apply H; [lia|assumption].
Qed.

Lemma basename_no_slash (path : string) : hasSlash (Path.basename path) = false.
Proof.
  unfold Path.basename.
  pose proof (scan_delimits path (String.length path) (-1)%Z true) as H.
  destruct (Path.scan path (String.length path) (-1)%Z true) as [start e].
  destruct H as [Hstart H]; [now left|].
  destruct (Z.eqb_spec e (-1)) as [|Hne]; [reflexivity|].
  destruct H as [|H]; [contradiction|].
  apply hasSlash_isSlashAt. intros p. unfold Path.isSlashAt.
  destruct (Nat.lt_ge_cases p (Z.to_nat (e - start))) as [Hlt|Hge].
  - rewrite substring_correct1 by assumption.
    apply (H (p + Z.to_nat start)%nat); lia.
  - now rewrite substring_correct2.
Qed.

Lemma length_append (s1 s2 : string) :
  String.length (s1 ++ s2) = (String.length s1 + String.length s2)%nat.
Proof. induction s1 as [|c s1 IH]; simpl; [reflexivity|now rewrite IH]. Qed.

Lemma substring_whole (s : string) : substring 0 (String.length s) s = s.
Proof. induction s as [|c s IH]; simpl; [reflexivity|now rewrite IH]. Qed.

Lemma substring_suffix (s1 s2 : string) :
  substring (String.length s1) (String.length s2) (s1 ++ s2) = s2.
Proof.
  induction s1 as [|c s1 IH]; simpl; [apply substring_whole|exact IH].
Qed.

Lemma isSlashAt_suffix (s1 s2 : string) (j : nat) :
  Path.isSlashAt (s1 ++ s2) (j + String.length s1) = Path.isSlashAt s2 j.
Proof. unfold Path.isSlashAt. now rewrite <- append_correct2. Qed.

(** Going down through code units that are not separators, once [end] is
    set, changes nothing. *)
Lemma scan_through (path : string) (k d : nat) (end_ : Z) :
  end_ <> (-1)%Z ->
  (forall j, (k <= j < k + d)%nat -> Path.isSlashAt path j = false) ->
  Path.scan path (k + d) end_ false = Path.scan path k end_ false.
Proof.
  intros Hend. apply Z.eqb_neq in Hend.
  induction d as [|d IH]; intros H.
  - now rewrite Nat.add_0_r.
  - rewrite Nat.add_succ_r. simpl.
    rewrite (H (k + d)%nat) by lia. rewrite Hend.
    apply IH. intros j Hj. apply H. lia.
Qed.

(** The scan of [prefix ++ leaf], for a non-empty leaf without separator,
    arrives at the end of the prefix with [end] at the end of the path. *)
Lemma scan_leaf (pre leaf : string) :
  leaf <> "" ->
  hasSlash leaf = false ->
  Path.scan (pre ++ leaf) (String.length (pre ++ leaf)) (-1)%Z true =
  Path.scan (pre ++ leaf) (String.length pre)
    (Z.of_nat (String.length (pre ++ leaf))) false.
Proof.
  intros Hne Hleaf.
  assert (Hsuffix : forall j, (String.length pre <= j)%nat ->
                              Path.isSlashAt (pre ++ leaf) j = false).
  { intros j Hj.
    replace j with ((j - String.length pre) + String.length pre)%nat by lia.
    rewrite isSlashAt_suffix. now apply hasSlash_isSlashAt. }
  rewrite length_append.
  destruct leaf as [|c leaf]; [congruence|]. cbn [String.length].
  rewrite Nat.add_succ_r. cbn [Path.scan].
  rewrite Hsuffix by lia. change (-1 =? -1)%Z with true. cbv iota.
  replace (Z.of_nat (String.length pre + String.length leaf) + 1)%Z
    with (Z.of_nat (S (String.length pre + String.length leaf))) by lia.
  apply scan_through; [lia|].
  intros j Hj. apply Hsuffix. lia.
Qed.

Lemma basename_bare (leaf : string) :
  leaf <> "" -> hasSlash leaf = false -> Path.basename leaf = leaf.
Proof.
  intros Hne Hleaf. unfold Path.basename.
  change leaf with ("" ++ leaf) at 1 2.
  rewrite scan_leaf by assumption. cbn [String.length Path.scan append].
  destruct (Z.eqb_spec (Z.of_nat (String.length leaf)) (-1)) as [E|_]; [lia|].
  rewrite Z.sub_0_r, Nat2Z.id. apply substring_whole.
Qed.

Lemma basename_leaf (dir leaf : string) :
  leaf <> "" -> hasSlash leaf = false ->
  Path.basename (dir ++ "/" ++ leaf) = leaf.
Proof.
  intros Hne Hleaf. unfold Path.basename.
  change (dir ++ "/" ++ leaf) with (dir ++ String Path.CHAR_FORWARD_SLASH leaf).
  assert (Epath : dir ++ String Path.CHAR_FORWARD_SLASH leaf =
                  (dir ++ "/") ++ leaf).
  { induction dir as [|c dir IH]; simpl; [reflexivity|now rewrite <- IH]. }
  rewrite Epath, scan_leaf by assumption.
  assert (Elen : String.length (dir ++ "/") = S (String.length dir))
    by (rewrite length_append; simpl; lia).
  rewrite Elen. cbn [Path.scan].
  assert (Hslash : Path.isSlashAt ((dir ++ "/") ++ leaf) (String.length dir)
                   = true).
  { rewrite <- Epath.
    change (String.length dir) with (0 + String.length dir)%nat.
    now rewrite isSlashAt_suffix. }
  rewrite Hslash. cbn [negb].
  rewrite length_append, Elen.
  destruct (Z.eqb_spec (Z.of_nat (S (String.length dir) + String.length leaf))
              (-1)) as [E|_]; [lia|].
  replace (Z.to_nat (Z.of_nat (String.length dir) + 1))
    with (String.length (dir ++ "/")) by lia.
  replace (Z.to_nat (Z.of_nat (S (String.length dir) + String.length leaf)
                     - (Z.of_nat (String.length dir) + 1)))
    with (String.length leaf) by lia.
  apply substring_suffix.
Qed.

(** ** Names that can and cannot be recorded *)

Lemma Appends_name (requiredModules : list string) (suffix : list string)
  (name : string) :
  Appends requiredModules suffix -> In name suffix ->
  name <> "" /\ exists str, getRequiredModuleName requiredModules str = Some name.
Proof.
  intros [r|r str name' H Hne]; simpl; [tauto|].
  intros [<-|[]]. split; [assumption|now exists str].
Qed.

Lemma getRequiredModuleName_no_slash (requiredModules : list string)
  (str name : string) :
  getRequiredModuleName requiredModules str = Some name ->
  hasSlash name = false.
Proof.
  rewrite getRequiredModuleName_contract.
  destruct (string_dec str "../common/index.mjs") as [_|_].
  - now intros [= <-].
  - destruct (in_dec _ _ _) as [_|_]; [|discriminate].
    intros [= <-]. apply basename_no_slash.
Qed.

(** X7.  A name that a visited node records is never empty and never
    contains a path separator.  So a configured name that is empty or
    contains a separator is recorded by no node of any file, in either
    parsing mode, and it is among the reports whenever fewer names were
    recorded than are configured. *)
Theorem names_with_separator_are_never_recorded :
  forall (context : Context) (program : ProgramNode) (name : string),
    name = "" \/ hasSlash name = true ->
    (forall n, ~ satisfiesRequirement context n name)
    /\ (In name (options context) ->
        (length (foundModules (traversed context program))
         < length (options context))%nat ->
        In (missingReport program name) (lint context program)).
Proof.
  intros context program name Hbad.
  assert (Hnever : forall n, ~ satisfiesRequirement context n name).
  { intros n Hsat.
    destruct (Appends_name _ _ name (recorded_Appends context n) Hsat)
      as (Hne & str & Hstr).
    apply getRequiredModuleName_no_slash in Hstr.
    destruct Hbad as [->|Hslash]; congruence. }
  split; [exact Hnever|].
  intros Hreq Hlen. rewrite lint_spec.
  apply Nat.ltb_lt in Hlen. rewrite Hlen.
  apply in_map, In_missingModules. split; [assumption|].
  intros Hfound. apply found_iff_recorded in Hfound.
  destruct Hfound as (n & _ & Hsat). exact (Hnever n Hsat).
Qed.

Lemma names_with_separator_are_never_recorded_witness :
  let context := scriptContext ["internal/util"] in
  let program := Program [callStatement "require" "internal/util"] in
  In (missingReport program "internal/util") (lint context program).
Proof.
  intros context program.
  apply (names_with_separator_are_never_recorded
           context program "internal/util").
  - right. reflexivity.
  - simpl. tauto.
  - vm_compute. lia.
Defined.

Lemma no_slash_not_alias (leaf : string) :
  hasSlash leaf = false -> leaf <> "../common/index.mjs".
Proof. intros H ->. discriminate. Qed.

(** X8.  A configured name without separator is found at the end of any
    directory prefix: the resolver returns it for the bare name and for
    [dir/name], whatever [dir] is, the alias path apart; an import
    declaration of that path records it in a module, and so does a
    [require] call of that path elsewhere when the path has no white
    space to trim. *)
Theorem directory_prefix_is_irrelevant :
  forall (context : Context) (dir leaf : string),
    In leaf (options context) ->
    leaf <> "" ->
    hasSlash leaf = false ->
    dir ++ "/" ++ leaf <> "../common/index.mjs" ->
    getRequiredModuleName (options context) leaf = Some leaf
    /\ getRequiredModuleName (options context) (dir ++ "/" ++ leaf) = Some leaf
    /\ (parserOptions_sourceType context = "module" ->
        recorded context (ImportDeclaration (dir ++ "/" ++ leaf)) = [leaf])
    /\ (parserOptions_sourceType context <> "module" ->
        JS.trim (dir ++ "/" ++ leaf) = dir ++ "/" ++ leaf ->
        recorded context (requireCall (dir ++ "/" ++ leaf)) = [leaf]).
Proof.
  intros context dir leaf Hreq Hne Hleaf Hpath.
  assert (Hoptions : options context <> [])
    by (intros E; rewrite E in Hreq; destruct Hreq).
  assert (Hbare : getRequiredModuleName (options context) leaf = Some leaf).
  { rewrite getRequiredModuleName_other by now apply no_slash_not_alias.
    rewrite basename_bare by assumption.
    now destruct (in_dec string_dec leaf (options context)). }
  assert (Hdir : getRequiredModuleName (options context) (dir ++ "/" ++ leaf)
                 = Some leaf).
  { rewrite getRequiredModuleName_other by assumption.
    rewrite basename_leaf by assumption.
    now destruct (in_dec string_dec leaf (options context)). }
  apply String.eqb_neq in Hne.
  repeat split; try assumption.
  - intros Hmode. rewrite recorded_import by assumption.
    now rewrite Hdir, Hne.
  - intros Hmode Htrim. rewrite recorded_requireCall by assumption.
    now rewrite Htrim, Hdir, Hne.
Qed.

Lemma directory_prefix_is_irrelevant_witness :
  recorded (moduleContext ["common"; "fs"])
    (ImportDeclaration ("../../lib" ++ "/" ++ "fs")) = ["fs"]
  /\ recorded (scriptContext ["common"; "fs"])
       (requireCall ("../../lib" ++ "/" ++ "fs")) = ["fs"].
Proof.
  split.
  - apply (directory_prefix_is_irrelevant
             (moduleContext ["common"; "fs"]) "../../lib" "fs");
      try discriminate; try reflexivity.
    simpl. tauto.
  - apply (directory_prefix_is_irrelevant
             (scriptContext ["common"; "fs"]) "../../lib" "fs");
      try discriminate; try reflexivity.
    simpl. tauto.
Defined.

(** ** White space around the path of a call *)

Lemma trimStart_pad (pad s : string) :
  allWhiteSpace pad = true -> JS.trimStart (pad ++ s) = JS.trimStart s.
Proof.
  induction pad as [|c pad IH]; simpl; [reflexivity|].
  intros H. apply andb_true_iff in H. destruct H as [Hc Hpad].
  rewrite Hc. now apply IH.
Qed.

Lemma trimStart_allWhiteSpace (pad : string) :
  allWhiteSpace pad = true -> JS.trimStart pad = "".
Proof.
  induction pad as [|c pad IH]; simpl; [reflexivity|].
  intros H. apply andb_true_iff in H. destruct H as [Hc Hpad].
  rewrite Hc. now apply IH.
Qed.

Lemma trimEnd_allWhiteSpace (pad : string) :
  allWhiteSpace pad = true -> JS.trimEnd pad = "".
Proof.
  induction pad as [|c pad IH]; simpl; [reflexivity|].
  intros H. apply andb_true_iff in H. destruct H as [Hc Hpad].
  now rewrite IH, Hc.
Qed.

Lemma trimEnd_pad (s pad : string) :
  allWhiteSpace pad = true -> JS.trimEnd (s ++ pad) = JS.trimEnd s.
Proof.
  intros Hpad. induction s as [|c s IH]; simpl.
  - now apply trimEnd_allWhiteSpace.
  - now rewrite IH.
Qed.

Lemma trimStart_before_pad (s pad : string) :
  JS.trimStart (s ++ pad) =
    if allWhiteSpace s then JS.trimStart pad else JS.trimStart s ++ pad.
Proof.
  induction s as [|c s IH]; simpl; [reflexivity|].
  destruct (JS.isWhiteSpace c); simpl; [exact IH|reflexivity].
Qed.

Lemma trim_padded (before s after : string) :
  allWhiteSpace before = true -> allWhiteSpace after = true ->
  JS.trim (before ++ s ++ after) = JS.trim s.
Proof.
  intros Hb Ha. unfold JS.trim.
  rewrite trimStart_pad by assumption. rewrite trimStart_before_pad.
  destruct (allWhiteSpace s) eqn:Hs.
  - rewrite (trimStart_allWhiteSpace after Ha).
    now rewrite (trimStart_allWhiteSpace s Hs).
  - now apply trimEnd_pad.
Qed.

Lemma onCallExpression_require (requiredModules : list string)
  (str : string) (rest : list ASTNode) (st : State) :
  onCallExpression requiredModules
    (CallExpression (Identifier "require") (Literal (VString str) :: rest)) st
  = if JS.truthy (getRequiredModuleName requiredModules (JS.trim str))
    then match getRequiredModuleName requiredModules (JS.trim str) with
         | Some name => push name st
         | None => st
         end
    else st.
Proof. reflexivity. Qed.

(** X9.  White space before and after the path of a [require] call does
    not matter: in every context and state, entering the call with the
    padded literal does what entering the call with the bare literal
    does, whatever arguments follow the first. *)
Theorem call_path_padding_is_ignored :
  forall (context : Context) (st : State) (before str after : string)
         (rest : list ASTNode),
    allWhiteSpace before = true ->
    allWhiteSpace after = true ->
    enter (create context) st
      (CallExpression (Identifier "require")
         (Literal (VString (before ++ str ++ after)) :: rest))
    = enter (create context) st
        (CallExpression (Identifier "require")
           (Literal (VString str) :: rest)).
Proof.
  intros context st before str after rest Hb Ha.
  unfold create.
  destruct (length (options context) =? 0)%nat; [reflexivity|].
  destruct (parserOptions_sourceType context =? "module"); [reflexivity|].
  cbn [enter rule_CallExpression applyHandler].
  rewrite !onCallExpression_require.
  now rewrite trim_padded.
Qed.

Lemma call_path_padding_is_ignored_witness :
  enter (create (scriptContext ["fs"])) initialState
    (requireCall (" " ++ "./lib/fs" ++ "  "))
  = push "fs" initialState.
Proof.
  unfold requireCall.
  rewrite (call_path_padding_is_ignored (scriptContext ["fs"]) initialState
             " " "./lib/fs" "  " []); reflexivity.
Defined.

Lemma reportedNames_Permutation_witness :
  reportedNames
    (lint (scriptContext ["fs"; "path"; "os"])
       (Program [callStatement "require" "os"; callStatement "require" "x"]))
  = reportedNames
      (lint (scriptContext ["fs"; "path"; "os"])
         (Program [callStatement "require" "x"; callStatement "require" "os"])).
Proof.
  apply (reportedNames_Permutation (scriptContext ["fs"; "path"; "os"])
           (Program [callStatement "require" "os"; callStatement "require" "x"])
           (Program [callStatement "require" "x"; callStatement "require" "os"])).
  apply perm_swap.
Defined.

(** ** Adding code to a file *)

Lemma found_inserted (context : Context) (before extra after : list ASTNode) :
  foundModules (traversed context (Program (before ++ extra ++ after))) =
    (recordedBy context before ++ recordedBy context extra
     ++ recordedBy context after)%list.
Proof.
  rewrite foundModules_traversed. unfold visited, recordedBy. simpl.
  now rewrite !flat_map_app.
Qed.

Lemma found_without (context : Context) (before after : list ASTNode) :
  foundModules (traversed context (Program (before ++ after))) =
    (recordedBy context before ++ recordedBy context after)%list.
Proof.
  rewrite foundModules_traversed. unfold visited, recordedBy. simpl.
  now rewrite !flat_map_app.
Qed.

(** X10.  Statements none of whose nodes records a name can be inserted
    anywhere among the top-level nodes of a file without changing the
    names reported. *)
Theorem irrelevant_statements_change_nothing :
  forall (context : Context) (before extra after : list ASTNode),
    (forall n, In n (flat_map traverse extra) -> recorded context n = []) ->
    reportedNames (lint context (Program (before ++ extra ++ after)))
    = reportedNames (lint context (Program (before ++ after))).
Proof.
  intros context before extra after Hextra.
  assert (E : recordedBy context extra = []).
  { unfold recordedBy.
    induction (flat_map traverse extra) as [|n nodes IH]; [reflexivity|].
    simpl. rewrite Hextra by now left.
    apply IH. intros n' Hn'. apply Hextra. now right. }
  rewrite !lint_spec, found_inserted, found_without, E. simpl.
  destruct (length (recordedBy context before ++ recordedBy context after)
            <? length (options context))%nat; [|reflexivity].
  now rewrite !reportedNames_missing.
Qed.

Lemma irrelevant_statements_change_nothing_witness :
  reportedNames
    (lint (scriptContext ["fs"; "path"])
       (Program ([callStatement "require" "fs"]
                 ++ [callStatement "doRequire" "path";
                     ExpressionStatement (Identifier "path")]
                 ++ [])))
  = ["path"].
Proof.
  rewrite (irrelevant_statements_change_nothing (scriptContext ["fs"; "path"])).
  - reflexivity.
  - intros n Hn. vm_compute in Hn.
    repeat (destruct Hn as [<-|Hn]; [reflexivity|]).
    destruct Hn.
Defined.

(** X11.  Adding top-level nodes to a file, anywhere, never adds a report:
    every name reported for the longer file is reported for the shorter
    one. *)
Theorem more_code_never_adds_a_report :
  forall (context : Context) (before extra after : list ASTNode)
         (name : string),
    In name
      (reportedNames (lint context (Program (before ++ extra ++ after)))) ->
    In name (reportedNames (lint context (Program (before ++ after)))).
Proof.
  intros context before extra after name.
  rewrite !lint_spec, found_inserted, found_without.
  destruct (Nat.ltb_spec
              (length (recordedBy context before ++ recordedBy context extra
                       ++ recordedBy context after))
              (length (options context))) as [Hlt|_]; [|intros []].
  rewrite !length_app in Hlt.
  destruct (Nat.ltb_spec
              (length (recordedBy context before ++ recordedBy context after))
              (length (options context))) as [_|Hge];
    [|rewrite length_app in Hge; lia].
  rewrite !reportedNames_missing, !In_missingModules.
  intros [Hreq Hout]. split; [assumption|].
  intros Hin. apply Hout.
  apply in_app_or in Hin. apply in_or_app.
  destruct Hin as [Hin|Hin]; [now left|right].
  apply in_or_app. now right.
Qed.

Lemma more_code_never_adds_a_report_witness :
  In "path"
    (reportedNames
       (lint (scriptContext ["fs"; "path"; "os"])
          (Program ([callStatement "require" "fs"] ++ [])))).
Proof.
  apply (more_code_never_adds_a_report (scriptContext ["fs"; "path"; "os"])
           [callStatement "require" "fs"] [callStatement "require" "os"] []).
  vm_compute. now left.
Defined.
